(** * Pezzo integrations: the [BaseExecutor.run] pipeline

    A shallow embedding of
    [libs/integrations/src/lib/integrations/base-executor.ts].

    The class holds a handle to the Pezzo client and one abstract
    method, [execute].  Its single public operation, [run], looks a
    prompt up, fetches the deployed version, interpolates the
    variables, calls the backend, and reports the execution back to the
    client.

    Modelling choices:
    - A JavaScript call either throws synchronously or returns; what the
      collaborators return are promises, which are either fulfilled or
      rejected.  The two kinds of failure are kept apart ([call],
      [promise]) because [try { return f() } catch ...] only intercepts
      the first one.
    - The collaborators (client, backend, clock) are stateful: every
      call takes the state of the outside world and returns the next
      one.  Every call made by [run] is appended to a trace together
      with its outcome.
    - JavaScript numbers are IEEE 754 binary64 values, the kernel's
      primitive floats: [+] and [-] round, and [NaN], the infinities
      and the two zeros are there.
    - JavaScript objects used as string-keyed maps ([settings],
      [variables]) are [gmap string _]. *)

From Stdlib Require Import ZArith Floats Uint63 List Lia Bool.
From stdpp Require Import base option strings gmap.

Local Open Scope string_scope.

(** ** Values *)

Definition number := float.

#[local] Set Warnings "-register-all".

(** Plain JavaScript data. *)
Inductive value :=
| VUndefined
| VNull
| VBool (b : bool)
| VNum (n : number)
| VStr (s : string)
| VObj (fields : list (string * value)).
#[local] Set Warnings "register-all".

(** Modelled from the spec: the class [PezzoClientError], imported from
    [./types], is declared outside this source file; it is taken to be
    an error that carries a message, the original cause and, where
    there is one, a numeric status code, as the three arguments of its
    constructor calls are.

    [thrown] is what can be thrown, or be the reason of a rejected
    promise: an ordinary [Error] raised by a collaborator, or a
    [PezzoClientError] built by this class.  The cause of the latter is
    whatever was caught or found in the backend result. *)
Inductive thrown :=
| JsError (message : string)
| PezzoClientError (message : string) (error : unknown)
    (statusCode : option number)
with unknown :=
| Data (v : value)
| Exception (t : thrown).

(** [error.message] *)
Definition message_of (e : thrown) : string :=
  match e with
  | JsError m => m
  | PezzoClientError m _ _ => m
  end.

Inductive promise (A : Type) :=
| Fulfilled (a : A)
| Rejected (e : thrown).
Arguments Fulfilled {A} a.
Arguments Rejected {A} e.

(** Outcome of calling a function that returns a promise. *)
Inductive call (A : Type) :=
| Throws (e : thrown)
| Returns (p : promise A).
Arguments Throws {A} e.
Arguments Returns {A} p.

(** ** Data model *)

Inductive Status := Success | Error.

Module ExecuteOptions.
Record t := mk { autoParseJSON : option bool }.
(** The default [{}]. *)
Definition empty : t := mk None.
End ExecuteOptions.

Module ExecuteProps.
Record t := mk {
  content : string;
  settings : gmap string value;
  options : ExecuteOptions.t
}.
End ExecuteProps.

Module ErrorRecord.
Record t := mk {
  error : unknown;
  message : option string;
  printableError : string;
  status : number
}.
End ErrorRecord.

Module ExecuteResult.
Record t := mk {
  status : Status;
  promptTokens : number;
  completionTokens : number;
  promptCost : number;
  completionCost : number;
  error : option ErrorRecord.t;
  result : option string
}.
End ExecuteResult.

Module Prompt.
Record t := mk { id : string }.
End Prompt.

Module PromptVersion.
Record t := mk {
  sha : string;
  content : string;
  settings : gmap string value
}.
End PromptVersion.

(** The object literal handed to [reportPromptExecution].  A key that
    the literal may leave out is an [option]: [result] is present in the
    first report (with a possibly undefined value) and left out of the
    fallback one; [error] comes from a conditional spread. *)
Module Report.
Record t := mk {
  prompt : string;  (* { connect: { id } } *)
  promptVersionSha : string;
  status : Status;
  content : string;
  variables : gmap string string;
  interpolatedContent : string;
  settings : gmap string value;
  result : option (option string);
  error : option string;
  promptTokens : number;
  completionTokens : number;
  totalTokens : number;
  promptCost : number;
  completionCost : number;
  totalCost : number;
  duration : number
}.
End Report.

(** [obj.key], [undefined] when the key is missing. *)
Definition prop (obj : gmap string value) (key : string) : value :=
  default VUndefined (obj !! key).

(** [Math.ceil]: [NaN], the zeros and the infinities are returned as
    they are, and so is a number whose exponent shows that it has no
    fractional part.  Otherwise the number is [m * 2^e] up to sign,
    with [e < 0]: its magnitude is cut to a whole number, which is the
    result for a negative number (so that anything in [(-1, 0)] gives
    [-0]), and goes one up for a positive number that had a fractional
    part.  The whole number is below [2^53] and converts exactly. *)
Definition Math_ceil (x : number) : number :=
  match Prim2SF x with
  | S754_finite s m e =>
      if (0 <=? e)%Z then x
      else
        let unit := (2 ^ (- e))%Z in
        let whole := (Zpos m / unit)%Z in
        if s then (- of_uint63 (of_Z whole))%float
        else if (whole * unit =? Zpos m)%Z then of_uint63 (of_Z whole)
        else of_uint63 (of_Z (whole + 1))
  | _ => x
  end.

(** Not below zero: a zero of either sign, a positive number or
    [+Infinity]. *)
Definition SFnonneg (x : spec_float) : bool := SFleb (S754_zero false) x.

(** Neither [NaN] nor an infinity. *)
Definition SFfinite (x : spec_float) : bool :=
  match x with
  | S754_zero _ | S754_finite _ _ _ => true
  | _ => false
  end.

(** ** Trace of the calls made to the collaborators *)

Inductive event :=
| FindPrompt (name : string) (out : call Prompt.t)
| GetDeployedPromptVersion (promptId : string) (out : call PromptVersion.t)
| InterpolateVariables (template : string) (vars : gmap string string)
    (out : string)
| PerformanceNow (t : number)
| Execute (props : ExecuteProps.t) (out : call ExecuteResult.t)
| ReportPromptExecution (report : Report.t) (autoParseJSON : option bool)
    (out : call value).

(** ** A state and exception monad *)

Inductive completion (A : Type) :=
| Normal (a : A)
| Throw (e : thrown).
Arguments Normal {A} a.
Arguments Throw {A} e.

Definition M (S A : Type) : Type := S -> completion A * S.

Definition ret {S A} (a : A) : M S A := fun s => (Normal a, s).

Definition bind {S A B} (m : M S A) (k : A -> M S B) : M S B :=
  fun s =>
    match m s with
    | (Normal a, s') => k a s'
    | (Throw e, s') => (Throw e, s')
    end.

Definition throw {S A} (e : thrown) : M S A := fun s => (Throw e, s).

(** [try { body } catch (e) { handler }] *)
Definition try_catch {S A} (body : M S A) (handler : thrown -> M S A)
  : M S A :=
  fun s =>
    match body s with
    | (Normal a, s') => (Normal a, s')
    | (Throw e, s') => handler e s'
    end.

(** [await p] *)
Definition await {S A} (p : promise A) : M S A :=
  match p with
  | Fulfilled a => ret a
  | Rejected e => throw e
  end.

(** An [async] function: a body that throws rejects the returned
    promise; a body that returns a promise settles as that promise
    does. *)
Definition async {S A} (body : M S (promise A)) : S -> promise A * S :=
  fun s =>
    match body s with
    | (Normal p, s') => (p, s')
    | (Throw e, s') => (Rejected e, s')
    end.

Declare Scope js_scope.
Delimit Scope js_scope with js.
Notation "'let*' x ':=' m 'in' k" := (bind m (fun x => k))
  (at level 10, x name, m at level 100, k at level 200) : js_scope.
Notation "m ';;' k" := (bind m (fun _ => k))
  (at level 100, k at level 200, right associativity) : js_scope.

(** ** The collaborators *)

Section BaseExecutor.

(** State of the outside world. *)
Context {W : Type}.

(** The [Pezzo] client, as far as this class uses it. *)
Record Pezzo := {
  findPrompt : string -> W -> call Prompt.t * W;
  getDeployedPromptVersion : string -> W -> call PromptVersion.t * W;
  reportPromptExecution :
    Report.t -> option bool -> W -> call value * W
}.

(** A concrete subclass: the client handle and the [execute]
    method. *)
Record BaseExecutor := {
  pezzoClient : Pezzo;
  execute : ExecuteProps.t -> W -> call ExecuteResult.t * W
}.

(** What the module imports or finds in the global scope. *)
Record Runtime := {
  interpolateVariables : string -> gmap string string -> string;
  performance_now : W -> number * W
}.

Record state := { world : W; trace : list event }.

(** Calls a collaborator, records the call, and completes as the call
    does. *)
Definition invoke {A} (f : W -> call A * W) (ev : call A -> event)
  : M state (promise A) :=
  fun s =>
    let (out, w') := f (world s) in
    let s' := {| world := w'; trace := trace s ++ [ev out] |} in
    match out with
    | Throws e => (Throw e, s')
    | Returns p => (Normal p, s')
    end.

Variable rt : Runtime.
Variable this : BaseExecutor.

Definition call_interpolateVariables (template : string)
  (vars : gmap string string) : M state string :=
  fun s =>
    let out := interpolateVariables rt template vars in
    (Normal out,
     {| world := world s;
        trace := trace s ++ [InterpolateVariables template vars out] |}).

Definition call_performance_now : M state number :=
  fun s =>
    let (t, w') := performance_now rt (world s) in
    (Normal t, {| world := w'; trace := trace s ++ [PerformanceNow t] |}).

Local Open Scope js_scope.

Definition getPrompt (promptName : string) : M state (promise Prompt.t) :=
  try_catch
    (invoke (findPrompt (pezzoClient this) promptName)
            (FindPrompt promptName))
    (fun error =>
       throw (PezzoClientError (message_of error) (Exception error) None)).

Definition getPromptVersion (promptId : string)
  : M state (promise PromptVersion.t) :=
  try_catch
    (invoke (getDeployedPromptVersion (pezzoClient this) promptId)
            (GetDeployedPromptVersion promptId))
    (fun error =>
       throw (PezzoClientError (message_of error) (Exception error) None)).

Definition execution_failed : string :=
  "Prompt execution failed. Check the Pezzo History to see what went wrong.".

(** The body of [run]; its result is the promise that the [return]
    statement hands over. *)
Definition run_body (promptName : string) (variables : gmap string string)
  (options : ExecuteOptions.t) : M state (promise value) :=
  let* p := getPrompt promptName in
  let* prompt := await p in
  let* p := getPromptVersion (Prompt.id prompt) in
  let* promptVersion := await p in
  let settings := PromptVersion.settings promptVersion in
  let content := PromptVersion.content promptVersion in
  let* interpolatedContent := call_interpolateVariables content variables in
  let* start := call_performance_now in
  let props :=
    {| ExecuteProps.content := interpolatedContent;
       ExecuteProps.settings :=
         {[ "model" := prop settings "model";
            "modelSettings" := prop settings "modelSettings" ]};
       ExecuteProps.options := options |} in
  let* p := invoke (execute this props) (Execute props) in
  let* executionResult := await p in
  match ExecuteResult.error executionResult with
  | Some err =>
      throw (PezzoClientError execution_failed
               (ErrorRecord.error err) (Some (ErrorRecord.status err)))
  | None =>
      let* end_ := call_performance_now in
      let duration := Math_ceil (end_ - start)%float in
      let promptConnect := Prompt.id prompt in
      let spread_error :=
        match ExecuteResult.error executionResult with
        | Some err => Some (ErrorRecord.printableError err)
        | None => None
        end in
      try_catch
        (let report :=
           {| Report.prompt := promptConnect;
              Report.promptVersionSha := PromptVersion.sha promptVersion;
              Report.status := ExecuteResult.status executionResult;
              Report.content := content;
              Report.variables := variables;
              Report.interpolatedContent := interpolatedContent;
              Report.settings := settings;
              Report.result := Some (ExecuteResult.result executionResult);
              Report.error := spread_error;
              Report.promptTokens :=
                ExecuteResult.promptTokens executionResult;
              Report.completionTokens :=
                ExecuteResult.completionTokens executionResult;
              Report.totalTokens :=
                (ExecuteResult.promptTokens executionResult
                + ExecuteResult.completionTokens executionResult)%float;
              Report.promptCost := ExecuteResult.promptCost executionResult;
              Report.completionCost :=
                ExecuteResult.completionCost executionResult;
              Report.totalCost :=
                (ExecuteResult.promptCost executionResult
                + ExecuteResult.completionCost executionResult)%float;
              Report.duration := duration |} in
         let hint := ExecuteOptions.autoParseJSON options in
         invoke (reportPromptExecution (pezzoClient this) report hint)
                (ReportPromptExecution report hint))
        (fun e =>
           let report :=
             {| Report.prompt := promptConnect;
                Report.promptVersionSha := PromptVersion.sha promptVersion;
                Report.status := Error;
                Report.content := content;
                Report.variables := variables;
                Report.interpolatedContent := interpolatedContent;
                Report.settings := settings;
                Report.result := None;
                Report.error := spread_error;
                Report.promptTokens :=
                  ExecuteResult.promptTokens executionResult;
                Report.completionTokens :=
                  ExecuteResult.completionTokens executionResult;
                Report.totalTokens :=
                  (ExecuteResult.promptTokens executionResult
                  + ExecuteResult.completionTokens executionResult)%float;
                Report.promptCost :=
                  ExecuteResult.promptCost executionResult;
                Report.completionCost :=
                  ExecuteResult.completionCost executionResult;
                Report.totalCost :=
                  (ExecuteResult.promptCost executionResult
                  + ExecuteResult.completionCost executionResult)%float;
                Report.duration := duration |} in
           invoke (reportPromptExecution (pezzoClient this) report None)
                  (ReportPromptExecution report None);;
           throw e)
  end.

(** [async run(promptName, variables = {}, options = {})], started in
    world [w] with an empty trace: how the returned promise settles,
    and the world and the trace at the end. *)
Definition run (promptName : string) (variables : gmap string string)
  (options : ExecuteOptions.t) (w : W) : promise value * state :=
  async (run_body promptName variables options)
        {| world := w; trace := [] |}.

End BaseExecutor.

Arguments Pezzo W : clear implicits.
Arguments BaseExecutor W : clear implicits.
Arguments Runtime W : clear implicits.
Arguments state W : clear implicits.

(** ** Reading a trace *)

(** The report submissions, in order: payload, [autoParseJSON] argument
    and outcome of the call. *)
Fixpoint submissions (tr : list event)
  : list (Report.t * option bool * call value) :=
  match tr with
  | [] => []
  | ReportPromptExecution report hint out :: tr' =>
      (report, hint, out) :: submissions tr'
  | _ :: tr' => submissions tr'
  end.

(** The calls to [execute]. *)
Fixpoint executions (tr : list event)
  : list (ExecuteProps.t * call ExecuteResult.t) :=
  match tr with
  | [] => []
  | Execute props out :: tr' => (props, out) :: executions tr'
  | _ :: tr' => executions tr'
  end.

(** The calls to [interpolateVariables]. *)
Fixpoint interpolations (tr : list event)
  : list (string * gmap string string) :=
  match tr with
  | [] => []
  | InterpolateVariables template vars _ :: tr' =>
      (template, vars) :: interpolations tr'
  | _ :: tr' => interpolations tr'
  end.

(** The successive values of [performance.now()]. *)
Fixpoint clock_readings (tr : list event) : list number :=
  match tr with
  | [] => []
  | PerformanceNow t :: tr' => t :: clock_readings tr'
  | _ :: tr' => clock_readings tr'
  end.

(** The readings of a clock are numbers proper, neither [NaN] nor an
    infinity: [performance.now()] returns a [DOMHighResTimeStamp], a
    finite double. *)
Fixpoint all_finite (ts : list number) : Prop :=
  match ts with
  | [] => True
  | t :: ts' => is_finite t = true /\ all_finite ts'
  end.

(** A monotonic clock never goes back. *)
Fixpoint monotonic (ts : list number) : Prop :=
  match ts with
  | t1 :: ((t2 :: _) as ts') => (t1 <=? t2)%float = true /\ monotonic ts'
  | _ => True
  end.

(** The fallback payload that goes with a first payload: the same
    object without its [result] key and with [status] forced to
    ["Error"]. *)
Definition degraded (report : Report.t) : Report.t :=
  {| Report.prompt := Report.prompt report;
     Report.promptVersionSha := Report.promptVersionSha report;
     Report.status := Error;
     Report.content := Report.content report;
     Report.variables := Report.variables report;
     Report.interpolatedContent := Report.interpolatedContent report;
     Report.settings := Report.settings report;
     Report.result := None;
     Report.error := Report.error report;
     Report.promptTokens := Report.promptTokens report;
     Report.completionTokens := Report.completionTokens report;
     Report.totalTokens := Report.totalTokens report;
     Report.promptCost := Report.promptCost report;
     Report.completionCost := Report.completionCost report;
     Report.totalCost := Report.totalCost report;
     Report.duration := Report.duration report |}.

(** A lookup that did not deliver: the call threw, or its promise was
    rejected. *)
Definition failed {A} (out : call A) : Prop :=
  match out with
  | Returns (Fulfilled _) => False
  | _ => True
  end.

(** The steps of [run] that reach out of the class. *)
Inductive step :=
| Lookup
| Version
| Interpolation
| Clock
| Backend
| Submission.

Definition step_of (ev : event) : step :=
  match ev with
  | FindPrompt _ _ => Lookup
  | GetDeployedPromptVersion _ _ => Version
  | InterpolateVariables _ _ _ => Interpolation
  | PerformanceNow _ => Clock
  | Execute _ _ => Backend
  | ReportPromptExecution _ _ _ => Submission
  end.

(** The order in which the body of [run] is written. *)
Definition pipeline : list step :=
  [Lookup; Version; Interpolation; Clock; Backend; Clock;
   Submission; Submission].

(** [run(promptName, variables = {}, options = {})]: an argument that
    is left out, or [undefined], takes its default. *)
Definition run_with_defaults {W} (rt : Runtime W) (this : BaseExecutor W)
  (promptName : string) (variables : option (gmap string string))
  (options : option ExecuteOptions.t) (w : W) : promise value * state W :=
  run rt this promptName (default ∅ variables)
      (default ExecuteOptions.empty options) w.

(** ** Scripted collaborators

    A world in which every collaborator answers from a script: the
    lookups and the backend have one fixed answer, the report
    submissions and the clock consume a list. *)

Module Script.

Record t := mk {
  lookup : call Prompt.t;
  version : call PromptVersion.t;
  backend : call ExecuteResult.t;
  reports : list (call value);
  clock : list number
}.

Definition client : Pezzo t :=
  {| findPrompt := fun _ w => (lookup w, w);
     getDeployedPromptVersion := fun _ w => (version w, w);
     reportPromptExecution := fun _ _ w =>
       match reports w with
       | [] => (Returns (Fulfilled VUndefined), w)
       | out :: rest =>
           (out, mk (lookup w) (version w) (backend w) rest (clock w))
       end |}.

Definition executor : BaseExecutor t :=
  {| pezzoClient := client;
     execute := fun _ w => (backend w, w) |}.

(** A stand-in for the interpolation utility, which lives in another
    module: it knows the one template of the scenarios below. *)
Definition interpolate (template : string) (vars : gmap string string)
  : string :=
  match vars !! "name" with
  | Some v =>
      if String.eqb template "Hello, {{name}}!"
      then "Hello, " ++ v ++ "!"
      else template
  | None => template
  end.

Definition runtime : Runtime t :=
  {| interpolateVariables := interpolate;
     performance_now := fun w =>
       match clock w with
       | [] => (0%float, w)
       | now :: rest =>
           (now, mk (lookup w) (version w) (backend w) (reports w) rest)
       end |}.

Definition go (w : t) (promptName : string) (variables : gmap string string)
  (options : ExecuteOptions.t) : promise value * state t :=
  run runtime executor promptName variables options w.

End Script.

(** ** Scenarios *)

Module Scenario.

Local Open Scope float_scope.
#[local] Set Warnings "-inexact-float".

Definition greeting : Prompt.t := {| Prompt.id := "prompt-1" |}.

Definition deployed : PromptVersion.t :=
  {| PromptVersion.sha := "abc123";
     PromptVersion.content := "Hello, {{name}}!";
     PromptVersion.settings :=
       {[ "model" := VStr "gpt-3.5-turbo";
          "modelSettings" := VObj [("temperature", VNum 0)];
          "provider" := VStr "OpenAI" ]} |}.

Definition succeeded : ExecuteResult.t :=
  {| ExecuteResult.status := Success;
     ExecuteResult.promptTokens := 3;
     ExecuteResult.completionTokens := 2;
     ExecuteResult.promptCost := 0.001;
     ExecuteResult.completionCost := 0.002;
     ExecuteResult.error := None;
     ExecuteResult.result := Some "Hi Ada" |}.

Definition rate_limited : ErrorRecord.t :=
  {| ErrorRecord.error := Exception (JsError "Too Many Requests");
     ErrorRecord.message := None;
     ErrorRecord.printableError := "rate limited";
     ErrorRecord.status := 429 |}.

Definition errored : ExecuteResult.t :=
  {| ExecuteResult.status := Error;
     ExecuteResult.promptTokens := 0;
     ExecuteResult.completionTokens := 0;
     ExecuteResult.promptCost := 0;
     ExecuteResult.completionCost := 0;
     ExecuteResult.error := Some rate_limited;
     ExecuteResult.result := None |}.

Definition ada : gmap string string := {[ "name" := "Ada" ]}.

Definition json : ExecuteOptions.t := ExecuteOptions.mk (Some true).

(** What the backend is asked in these scenarios. *)
Definition request : ExecuteProps.t :=
  {| ExecuteProps.content := "Hello, Ada!";
     ExecuteProps.settings :=
       {[ "model" := VStr "gpt-3.5-turbo";
          "modelSettings" := VObj [("temperature", VNum 0)] ]};
     ExecuteProps.options := json |}.

(** The report of the successful execution, 2.5 ms long. *)
Definition first_report : Report.t :=
  {| Report.prompt := "prompt-1";
     Report.promptVersionSha := "abc123";
     Report.status := Success;
     Report.content := "Hello, {{name}}!";
     Report.variables := ada;
     Report.interpolatedContent := "Hello, Ada!";
     Report.settings := PromptVersion.settings deployed;
     Report.result := Some (Some "Hi Ada");
     Report.error := None;
     Report.promptTokens := 3;
     Report.completionTokens := 2;
     Report.totalTokens := 3 + 2;
     Report.promptCost := 0.001;
     Report.completionCost := 0.002;
     Report.totalCost := 0.001 + 0.002;
     Report.duration := 3 |}.

(** Its fallback. *)
Definition fallback_report : Report.t :=
  {| Report.prompt := "prompt-1";
     Report.promptVersionSha := "abc123";
     Report.status := Error;
     Report.content := "Hello, {{name}}!";
     Report.variables := ada;
     Report.interpolatedContent := "Hello, Ada!";
     Report.settings := PromptVersion.settings deployed;
     Report.result := None;
     Report.error := None;
     Report.promptTokens := 3;
     Report.completionTokens := 2;
     Report.totalTokens := 3 + 2;
     Report.promptCost := 0.001;
     Report.completionCost := 0.002;
     Report.totalCost := 0.001 + 0.002;
     Report.duration := 3 |}.

(** Everything works. *)
Definition happy : Script.t :=
  {| Script.lookup := Returns (Fulfilled greeting);
     Script.version := Returns (Fulfilled deployed);
     Script.backend := Returns (Fulfilled succeeded);
     Script.reports := [Returns (Fulfilled (VStr "Hi Ada"))];
     Script.clock := [10; 12.5] |}.

(** The backend answers with an error record. *)
Definition backend_error : Script.t :=
  {| Script.lookup := Returns (Fulfilled greeting);
     Script.version := Returns (Fulfilled deployed);
     Script.backend := Returns (Fulfilled errored);
     Script.reports := [Returns (Fulfilled VNull)];
     Script.clock := [10; 12.5] |}.

(** The promise of the prompt lookup is rejected. *)
Definition lookup_rejected : Script.t :=
  {| Script.lookup := Returns (Rejected (JsError "Prompt not found"));
     Script.version := Returns (Fulfilled deployed);
     Script.backend := Returns (Fulfilled succeeded);
     Script.reports := [Returns (Fulfilled VNull)];
     Script.clock := [10; 12.5] |}.

(** The prompt lookup throws before returning a promise. *)
Definition lookup_throws : Script.t :=
  {| Script.lookup := Throws (JsError "Prompt not found");
     Script.version := Returns (Fulfilled deployed);
     Script.backend := Returns (Fulfilled succeeded);
     Script.reports := [Returns (Fulfilled VNull)];
     Script.clock := [10; 12.5] |}.

(** The promise of the version lookup is rejected. *)
Definition version_rejected : Script.t :=
  {| Script.lookup := Returns (Fulfilled greeting);
     Script.version := Returns (Rejected (JsError "No deployed version"));
     Script.backend := Returns (Fulfilled succeeded);
     Script.reports := [Returns (Fulfilled VNull)];
     Script.clock := [10; 12.5] |}.

(** The first submission throws; the fallback one returns a promise
    that is rejected. *)
Definition report_throws_then_rejects : Script.t :=
  {| Script.lookup := Returns (Fulfilled greeting);
     Script.version := Returns (Fulfilled deployed);
     Script.backend := Returns (Fulfilled succeeded);
     Script.reports :=
       [Throws (JsError "first submission failed");
        Returns (Rejected (JsError "second submission failed"))];
     Script.clock := [10; 12.5] |}.

(** Both submissions throw. *)
Definition report_throws_twice : Script.t :=
  {| Script.lookup := Returns (Fulfilled greeting);
     Script.version := Returns (Fulfilled deployed);
     Script.backend := Returns (Fulfilled succeeded);
     Script.reports :=
       [Throws (JsError "first submission failed");
        Throws (JsError "second submission failed")];
     Script.clock := [10; 12.5] |}.

(** The promise of the first submission is rejected. *)
Definition report_rejected : Script.t :=
  {| Script.lookup := Returns (Fulfilled greeting);
     Script.version := Returns (Fulfilled deployed);
     Script.backend := Returns (Fulfilled succeeded);
     Script.reports :=
       [Returns (Rejected (JsError "first submission failed"));
        Returns (Fulfilled VNull)];
     Script.clock := [10; 12.5] |}.

(** A backend result that says ["Error"] without an error record. *)
Definition unexplained : ExecuteResult.t :=
  {| ExecuteResult.status := Error;
     ExecuteResult.promptTokens := 3;
     ExecuteResult.completionTokens := 0;
     ExecuteResult.promptCost := 0.001;
     ExecuteResult.completionCost := 0;
     ExecuteResult.error := None;
     ExecuteResult.result := None |}.

Definition unexplained_error : Script.t :=
  {| Script.lookup := Returns (Fulfilled greeting);
     Script.version := Returns (Fulfilled deployed);
     Script.backend := Returns (Fulfilled unexplained);
     Script.reports := [Returns (Fulfilled VNull)];
     Script.clock := [10; 12.5] |}.

(** Figures whose sums are rounded, and a clock whose difference
    is. *)
Definition rounded : ExecuteResult.t :=
  {| ExecuteResult.status := Success;
     ExecuteResult.promptTokens := 9007199254740992;
     ExecuteResult.completionTokens := 1;
     ExecuteResult.promptCost := 0.1;
     ExecuteResult.completionCost := 0.2;
     ExecuteResult.error := None;
     ExecuteResult.result := Some "Hi Ada" |}.

Definition rounding : Script.t :=
  {| Script.lookup := Returns (Fulfilled greeting);
     Script.version := Returns (Fulfilled deployed);
     Script.backend := Returns (Fulfilled rounded);
     Script.reports := [Returns (Fulfilled (VStr "Hi Ada"))];
     Script.clock := [0.1; 3.1] |}.

(** The version lookup throws before returning a promise. *)
Definition version_throws : Script.t :=
  {| Script.lookup := Returns (Fulfilled greeting);
     Script.version := Throws (JsError "No deployed version");
     Script.backend := Returns (Fulfilled succeeded);
     Script.reports := [Returns (Fulfilled VNull)];
     Script.clock := [10; 12.5] |}.

(** The backend throws instead of answering with an error record. *)
Definition backend_throws : Script.t :=
  {| Script.lookup := Returns (Fulfilled greeting);
     Script.version := Returns (Fulfilled deployed);
     Script.backend := Throws (JsError "socket hang up");
     Script.reports := [Returns (Fulfilled VNull)];
     Script.clock := [10; 12.5] |}.

(** A deployed version whose settings name no model. *)
Definition unconfigured : PromptVersion.t :=
  {| PromptVersion.sha := "def456";
     PromptVersion.content := "Hello, {{name}}!";
     PromptVersion.settings := {[ "provider" := VStr "OpenAI" ]} |}.

Definition no_model : Script.t :=
  {| Script.lookup := Returns (Fulfilled greeting);
     Script.version := Returns (Fulfilled unconfigured);
     Script.backend := Returns (Fulfilled succeeded);
     Script.reports := [Returns (Fulfilled (VStr "Hi Ada"))];
     Script.clock := [10; 12.5] |}.

(** What the backend is asked then. *)
Definition request_without_model : ExecuteProps.t :=
  {| ExecuteProps.content := "Hello, Ada!";
     ExecuteProps.settings :=
       {[ "model" := VUndefined; "modelSettings" := VUndefined ]};
     ExecuteProps.options := json |}.

(** The report of [run("greeting")], nothing else given. *)
Definition bare_report : Report.t :=
  {| Report.prompt := "prompt-1";
     Report.promptVersionSha := "abc123";
     Report.status := Success;
     Report.content := "Hello, {{name}}!";
     Report.variables := ∅;
     Report.interpolatedContent := "Hello, {{name}}!";
     Report.settings := PromptVersion.settings deployed;
     Report.result := Some (Some "Hi Ada");
     Report.error := None;
     Report.promptTokens := 3;
     Report.completionTokens := 2;
     Report.totalTokens := 3 + 2;
     Report.promptCost := 0.001;
     Report.completionCost := 0.002;
     Report.totalCost := 0.001 + 0.002;
     Report.duration := 3 |}.

(** [run("greeting")] *)
Definition play_bare (w : Script.t) : promise value * state Script.t :=
  run_with_defaults Script.runtime Script.executor "greeting" None None w.

(** [run("greeting", { name: "Ada" }, { autoParseJSON: true })] *)
Definition play (w : Script.t) : promise value * state Script.t :=
  Script.go w "greeting" ada json.

End Scenario.

(** ** Reasoning about [run] *)

(** Case analysis on the answers of the collaborators, in the order in
    which [run] asks for them. *)
Ltac unfold_run :=
  unfold run, async, run_body, getPrompt, getPromptVersion, invoke,
    call_interpolateVariables, call_performance_now, try_catch, bind,
    await, ret, throw;
  cbn [world trace fst snd].

Ltac innermost_match t :=
  match t with
  | context [match ?x with _ => _ end] =>
      match x with
      | context [match _ with _ => _ end] => innermost_match x
      | _ => constr:(x)
      end
  end.

Ltac answer :=
  match goal with
  | |- ?G =>
      let x := innermost_match G in
      destruct x eqn:?; cbn [world trace fst snd app]
  end.

Ltac run_cases := unfold_run; repeat answer.

(** Uses what is known of a trace: membership in, or equality with, an
    explicit list of events. *)
Ltac read_trace :=
  cbn [In submissions executions interpolations clock_readings monotonic
       all_finite
       failed length] in *;
  repeat match goal with
    | H : _ \/ _ |- _ => destruct H
    | H : False |- _ => destruct H
    | H : _ /\ _ |- _ => destruct H
    end;
  simplify_eq.

(** ** Arithmetic on doubles

    Rounding never turns a mantissa that is not negative into a
    negative number or into [NaN]. *)

Lemma shr_1_nonneg mrs : (0 <= shr_m mrs)%Z -> (0 <= shr_m (shr_1 mrs))%Z.
Proof.
  destruct mrs as [[|[p|p|]|p] r s]; cbn; lia.
Qed.

Lemma iter_shr_1_nonneg p : forall mrs,
  (0 <= shr_m mrs)%Z -> (0 <= shr_m (SpecFloat.iter_pos shr_1 p mrs))%Z.
Proof.
  induction p as [p IH|p IH|]; intros mrs H; cbn.
  - apply IH, IH, shr_1_nonneg, H.
  - apply IH, IH, H.
  - apply shr_1_nonneg, H.
Qed.

Lemma shr_fexp_nonneg m e l :
  (0 <= m)%Z -> (0 <= shr_m (fst (shr_fexp prec emax m e l)))%Z.
Proof.
  intros H. unfold shr_fexp, shr.
  assert (H0 : (0 <= shr_m (shr_record_of_loc m l))%Z)
    by (destruct l as [|[]]; exact H).
  destruct (_ - e)%Z; cbn [fst]; auto using iter_shr_1_nonneg.
Qed.

Lemma round_nearest_even_nonneg m l :
  (0 <= m)%Z -> (0 <= round_nearest_even m l)%Z.
Proof.
  intros H. destruct l as [|[]]; cbn; try lia.
  destruct (Z.even m); lia.
Qed.

Lemma binary_round_aux_nonneg m e l :
  (0 <= m)%Z -> SFnonneg (binary_round_aux prec emax false m e l) = true.
Proof.
  intros H. unfold binary_round_aux.
  pose proof (shr_fexp_nonneg m e l H) as H1.
  destruct (shr_fexp prec emax m e l) as [mrs' e'].
  cbn [fst] in H1.
  pose proof (shr_fexp_nonneg _ e' loc_Exact
                (round_nearest_even_nonneg _ (loc_of_shr_record mrs') H1)) as H2.
  destruct (shr_fexp prec emax _ e' loc_Exact) as [mrs'' e''].
  cbn [fst] in H2.
  destruct (shr_m mrs'') as [|p|p]; [reflexivity | | lia].
  destruct (e'' <=? _)%Z; reflexivity.
Qed.

Lemma binary_normalize_nonneg m e :
  (0 <= m)%Z -> SFnonneg (binary_normalize prec emax m e false) = true.
Proof.
  intros H. destruct m as [|p|p]; [reflexivity | | lia].
  cbn [binary_normalize]. unfold binary_round.
  destruct (shl_align _ _ _) as [mz ez].
  apply binary_round_aux_nonneg. lia.
Qed.

Lemma of_uint63_nonneg n : (0 <=? of_uint63 n)%float = true.
Proof.
  rewrite FloatAxioms.leb_spec, of_uint63_spec.
  apply binary_normalize_nonneg, to_Z_bounded.
Qed.

(** [Math.ceil] of a number that is not below zero is not below zero
    either. *)
Lemma Math_ceil_nonneg (x : number) :
  (0 <=? x)%float = true -> (0 <=? Math_ceil x)%float = true.
Proof.
  intros H. unfold Math_ceil.
  destruct (Prim2SF x) as [s|s| |s m e] eqn:Hx; try exact H.
  destruct (0 <=? e)%Z; [exact H | ].
  rewrite FloatAxioms.leb_spec, Hx in H.
  destruct s; [discriminate H | ].
  cbv zeta. destruct (_ =? _)%Z; apply of_uint63_nonneg.
Qed.

(** Subtraction. *)

Lemma digits2_pos_size m : digits2_pos m = Pos.size m.
Proof. induction m; cbn; congruence. Qed.

Lemma digits2_pos_bounds m :
  (2 ^ (Zpos (digits2_pos m) - 1) <= Zpos m < 2 ^ Zpos (digits2_pos m))%Z.
Proof.
  rewrite digits2_pos_size.
  pose proof (Pos.size_gt m) as Hgt. pose proof (Pos.size_le m) as Hle.
  apply Pos2Z.pos_lt_pos in Hgt. apply Pos2Z.pos_le_pos in Hle.
  rewrite Pos2Z.inj_pow in Hgt, Hle.
  split; [ | exact Hgt ].
  replace (Zpos (Pos.size m)) with (Z.succ (Zpos (Pos.size m) - 1))%Z in Hle
    by lia.
  rewrite Z.pow_succ_r in Hle by lia.
  change (Zpos m~0) with (2 * Zpos m)%Z in Hle. lia.
Qed.

Lemma iter_xO_value m d : Zpos (Pos.iter xO m d) = (Zpos m * 2 ^ Zpos d)%Z.
Proof.
  induction d as [|d IH] using Pos.peano_ind.
  - cbn. lia.
  - rewrite Pos.iter_succ, Pos2Z.inj_xO, IH, Pos2Z.inj_succ.
    rewrite Z.pow_succ_r by apply Pos2Z.is_nonneg. lia.
Qed.

Lemma shl_align_value m e ez :
  (ez <= e)%Z -> Zpos (fst (shl_align m e ez)) = (Zpos m * 2 ^ (e - ez))%Z.
Proof.
  intros H. unfold shl_align.
  destruct (ez - e)%Z as [|d|d] eqn:Hd; cbn [fst].
  - replace (e - ez)%Z with 0%Z by lia. lia.
  - lia.
  - rewrite iter_xO_value. f_equal. f_equal. lia.
Qed.

(** On canonical mantissas, comparing the exponents first and the
    mantissas next compares the magnitudes. *)
Lemma aligned_le m1 e1 m2 e2 :
  bounded prec emax m1 e1 = true ->
  bounded prec emax m2 e2 = true ->
  (e1 < e2 \/ e1 = e2 /\ Zpos m1 <= Zpos m2)%Z ->
  (Zpos (fst (shl_align m1 e1 (Z.min e1 e2)))
   <= Zpos (fst (shl_align m2 e2 (Z.min e1 e2))))%Z.
Proof.
  intros H1 H2 Hle.
  rewrite !shl_align_value by lia.
  destruct Hle as [Hlt | [-> Hm]].
  - apply andb_true_iff in H1 as [H1 _]. apply andb_true_iff in H2 as [H2 _].
    apply Z.eqb_eq in H1, H2. unfold fexp, SpecFloat.emin in H1, H2.
    pose proof (digits2_pos_bounds m1) as [_ Hm1].
    pose proof (digits2_pos_bounds m2) as [Hm2 _].
    assert (Hd1 : (Zpos (digits2_pos m1) <= prec)%Z) by lia.
    assert (Hd2 : (Zpos (digits2_pos m2) = prec)%Z) by lia.
    rewrite Hd2 in Hm2.
    assert (Hm1' : (Zpos m1 < 2 ^ prec)%Z).
    { eapply Z.lt_le_trans; [exact Hm1 | ].
      apply Z.pow_le_mono_r; lia. }
    rewrite Z.min_l by lia. rewrite Z.sub_diag, Z.pow_0_r, Z.mul_1_r.
    assert (Hp : (2 ^ 1 <= 2 ^ (e2 - e1))%Z) by (apply Z.pow_le_mono_r; lia).
    change (2 ^ 1)%Z with 2%Z in Hp.
    change (2 ^ prec)%Z with (2 * 2 ^ (prec - 1))%Z in Hm1'.
    nia.
  - rewrite Z.min_id, Z.sub_diag, Z.pow_0_r. lia.
Qed.

Lemma SFsub_nonneg x y :
  valid_binary x = true -> valid_binary y = true ->
  SFfinite x = true -> SFfinite y = true ->
  SFleb x y = true ->
  SFnonneg (SF64sub y x) = true.
Proof.
  intros Vx Vy Fx Fy Hle.
  destruct x as [sx|sx| |sx mx ex], y as [sy|sy| |sy my ey];
    try discriminate Fx; try discriminate Fy.
  - destruct sx, sy; reflexivity.
  - destruct sy; [discriminate Hle | reflexivity].
  - destruct sx; [reflexivity | discriminate Hle].
  - unfold SF64sub, SFsub. apply binary_normalize_nonneg.
    cbn [valid_binary] in Vx, Vy.
    unfold SFleb, SFcompare in Hle.
    destruct sx, sy; cbn [cond_Zopp]; try discriminate Hle.
    + (* both negative *)
      assert (Hmag : (ey < ex \/ ey = ex /\ Zpos my <= Zpos mx)%Z).
      { destruct (Z.compare_spec ex ey) as [->|Hlt|Hgt];
          [ | discriminate Hle | lia ].
        right. split; [reflexivity | ].
        change (Pos.compare_cont Eq mx my) with (Pos.compare mx my) in Hle.
        destruct (Pos.compare_spec mx my); cbn in Hle;
          try discriminate Hle; lia. }
      pose proof (aligned_le my ey mx ex Vy Vx Hmag). lia.
    + (* x negative, y positive *)
      lia.
    + (* both positive *)
      assert (Hmag : (ex < ey \/ ex = ey /\ Zpos mx <= Zpos my)%Z).
      { destruct (Z.compare_spec ex ey) as [->|Hlt|Hgt];
          [ | lia | discriminate Hle ].
        right. split; [reflexivity | ].
        change (Pos.compare_cont Eq mx my) with (Pos.compare mx my) in Hle.
        destruct (Pos.compare_spec mx my); try discriminate Hle; lia. }
      pose proof (aligned_le mx ex my ey Vx Vy Hmag) as H.
      rewrite (Z.min_comm ex ey) in H. lia.
Qed.

Lemma is_finite_SFfinite x : is_finite x = true -> SFfinite (Prim2SF x) = true.
Proof.
  unfold is_finite, is_nan, is_infinity.
  rewrite !FloatAxioms.eqb_spec, abs_spec.
  change (Prim2SF infinity) with (S754_infinity false).
  destruct (Prim2SF x) as [[]|[]| |s m e]; cbn; try reflexivity;
    intros H; exact H.
Qed.

(** The time elapsed between two finite readings of a clock that does
    not go back is not negative. *)
Lemma elapsed_nonneg (t1 t2 : number) :
  is_finite t1 = true -> is_finite t2 = true ->
  (t1 <=? t2)%float = true -> (0 <=? t2 - t1)%float = true.
Proof.
  intros F1 F2 H.
  rewrite FloatAxioms.leb_spec in *. rewrite FloatAxioms.sub_spec.
  apply SFsub_nonneg;
    auto using Prim2SF_valid, is_finite_SFfinite.
Qed.

Section Properties.

Context {W : Type} (rt : Runtime W) (this : BaseExecutor W).
Implicit Types (promptName : string) (variables : gmap string string)
  (options : ExecuteOptions.t) (w : W).

(** *** Lookups *)

(** X4: a prompt lookup that throws before returning a promise is
    caught by [getPrompt] and wrapped: [run] rejects with a
    [PezzoClientError] that has the message of the exception, the
    exception as cause and no status code. *)
Lemma prompt_lookup_throw_wrapped promptName variables options w e :
  In (FindPrompt promptName (Throws e))
     (trace (snd (run rt this promptName variables options w))) ->
  fst (run rt this promptName variables options w)
  = Rejected (PezzoClientError (message_of e) (Exception e) None).
Proof. run_cases; intros H; read_trace; reflexivity. Qed.

(** X6: a prompt lookup whose promise is rejected is not wrapped:
    [getPrompt] has returned by then, and [await] rethrows the reason
    as it is, so [run] rejects with that reason. *)
Lemma prompt_lookup_rejection_propagates promptName variables options w e :
  In (FindPrompt promptName (Returns (Rejected e)))
     (trace (snd (run rt this promptName variables options w))) ->
  fst (run rt this promptName variables options w) = Rejected e.
Proof. run_cases; intros H; read_trace; reflexivity. Qed.

(** X5: a version lookup that throws before returning a promise is
    caught by [getPromptVersion] and wrapped: [run] rejects with a
    [PezzoClientError] that has the message of the exception, the
    exception as cause and no status code. *)
Lemma version_lookup_throw_wrapped promptName variables options w id e :
  In (GetDeployedPromptVersion id (Throws e))
     (trace (snd (run rt this promptName variables options w))) ->
  fst (run rt this promptName variables options w)
  = Rejected (PezzoClientError (message_of e) (Exception e) None).
Proof. run_cases; intros H; read_trace; reflexivity. Qed.

(** X7: a version lookup whose promise is rejected is not wrapped:
    [run] rejects with the reason as it is. *)
Lemma version_lookup_rejection_propagates promptName variables options w
    id e :
  In (GetDeployedPromptVersion id (Returns (Rejected e)))
     (trace (snd (run rt this promptName variables options w))) ->
  fst (run rt this promptName variables options w) = Rejected e.
Proof. run_cases; intros H; read_trace; reflexivity. Qed.

(** *** Backend errors *)

(** X9: a backend result with an error record ends the run before any
    report is built: nothing is submitted to the client. *)
Lemma error_result_submits_nothing promptName variables options w
    props r err :
  In (Execute props (Returns (Fulfilled r)))
     (trace (snd (run rt this promptName variables options w))) ->
  ExecuteResult.error r = Some err ->
  submissions (trace (snd (run rt this promptName variables options w)))
  = [].
Proof. run_cases; intros H Herr; read_trace; reflexivity. Qed.

(** C2 (as amended): whenever the backend result carries an error
    record, [run] rejects with a [PezzoClientError] whose message is
    the fixed string "Prompt execution failed. Check the Pezzo History
    to see what went wrong.", whose cause is the [error] of the record
    and whose status code is the [status] of the record. *)
Theorem backend_error_raises_client_error promptName variables options w
    props r err :
  In (Execute props (Returns (Fulfilled r)))
     (trace (snd (run rt this promptName variables options w))) ->
  ExecuteResult.error r = Some err ->
  fst (run rt this promptName variables options w)
  = Rejected
      (PezzoClientError
         "Prompt execution failed. Check the Pezzo History to see what went wrong."
         (ErrorRecord.error err) (Some (ErrorRecord.status err))).
Proof. run_cases; intros H Herr; read_trace; reflexivity. Qed.

(** *** Reports *)

(** C3 (as amended): when the first report submission throws
    synchronously, a second submission follows, with the degraded
    payload (no [result] key, status ["Error"]); the error raised to
    the caller is the second call's exception when that call throws
    too, and the first submission's exception when the second call
    returns a promise. *)
Theorem first_submission_throws_retry promptName variables options w
    report1 hint1 e1 rest :
  submissions (trace (snd (run rt this promptName variables options w)))
  = (report1, hint1, Throws e1) :: rest ->
  exists report2 hint2 out2,
    rest = [(report2, hint2, out2)]
    /\ report2 = degraded report1
    /\ Report.result report2 = None
    /\ Report.status report2 = Error
    /\ fst (run rt this promptName variables options w)
       = Rejected match out2 with
                  | Throws e2 => e2
                  | Returns _ => e1
                  end.
Proof.
  run_cases; intros H; read_trace; eauto 10.
Qed.

(** C10 (as amended): when the first report submission throws
    synchronously, the first submission was given
    [options.autoParseJSON] and the retry is given no hint; the
    promise returned by the retry is not awaited, so whether it is
    fulfilled or rejected the first submission's exception is raised
    to the caller. *)
Theorem retry_without_hint_not_awaited promptName variables options w
    report1 hint1 e1 rest :
  submissions (trace (snd (run rt this promptName variables options w)))
  = (report1, hint1, Throws e1) :: rest ->
  hint1 = ExecuteOptions.autoParseJSON options
  /\ exists report2 out2,
       rest = [(report2, None, out2)]
       /\ forall p : promise value,
            out2 = Returns p ->
            fst (run rt this promptName variables options w) = Rejected e1.
Proof.
  run_cases; intros H; read_trace;
    (split; [reflexivity | do 2 eexists; split; [reflexivity | ]]);
    intros p Hp; simplify_eq; reflexivity.
Qed.

(** C5 (as amended): when the backend call is fulfilled with a result
    that has no error record, and every report submission the run makes
    returns a promise that is fulfilled, [run] makes exactly one
    submission, with [options.autoParseJSON], and is fulfilled with the
    value of that submission; the status of the report is the status of
    the backend result (["Success"] when the backend says so), and,
    the clock giving finite readings that do not go back, its duration
    is not below zero. *)
Theorem successful_run promptName variables options w props r :
  In (Execute props (Returns (Fulfilled r)))
     (trace (snd (run rt this promptName variables options w))) ->
  ExecuteResult.error r = None ->
  (forall report hint out,
     In (ReportPromptExecution report hint out)
        (trace (snd (run rt this promptName variables options w))) ->
     exists v, out = Returns (Fulfilled v)) ->
  all_finite
    (clock_readings
       (trace (snd (run rt this promptName variables options w)))) ->
  monotonic
    (clock_readings
       (trace (snd (run rt this promptName variables options w)))) ->
  exists report v,
    submissions (trace (snd (run rt this promptName variables options w)))
    = [(report, ExecuteOptions.autoParseJSON options, Returns (Fulfilled v))]
    /\ fst (run rt this promptName variables options w) = Fulfilled v
    /\ Report.status report = ExecuteResult.status r
    /\ (0 <=? Report.duration report)%float = true.
Proof.
  run_cases; intros H Herr Hsub Hfinite Hclock; read_trace.
  all: edestruct Hsub as [v Hv]; [do 6 right; left; reflexivity | ].
  all: simplify_eq.
  do 2 eexists. split; [reflexivity | split; [reflexivity | ]].
  split; [reflexivity | ].
  cbn [Report.duration].
  by apply Math_ceil_nonneg, elapsed_nonneg.
Qed.

(** C6: in every report handed to the client, by the first submission
    or by the retry, [totalTokens] is the sum of the backend result's
    [promptTokens] and [completionTokens], and [totalCost] the sum of
    its [promptCost] and [completionCost], the sum being the [+] of
    the program: the addition of doubles, which rounds. *)
Theorem submitted_report_totals promptName variables options w
    report hint out :
  In (ReportPromptExecution report hint out)
     (trace (snd (run rt this promptName variables options w))) ->
  exists props r,
    executions (trace (snd (run rt this promptName variables options w)))
    = [(props, Returns (Fulfilled r))]
    /\ Report.totalTokens report
       = (ExecuteResult.promptTokens r + ExecuteResult.completionTokens r)%float
    /\ Report.totalCost report
       = (ExecuteResult.promptCost r + ExecuteResult.completionCost r)%float.
Proof.
  run_cases; intros H; read_trace; eauto.
Qed.


(** C8: a run submits at most two reports, and two only when the
    first submission threw; it submits none when the prompt lookup or
    the version lookup fails, by throwing or by rejecting. *)
Theorem at_most_two_submissions promptName variables options w :
  (length (submissions
             (trace (snd (run rt this promptName variables options w))))
   <= 2)%nat
  /\ (forall first second,
        submissions
          (trace (snd (run rt this promptName variables options w)))
        = [first; second] ->
        exists e, snd first = Throws e)
  /\ (forall name out,
        In (FindPrompt name out)
           (trace (snd (run rt this promptName variables options w))) ->
        failed out ->
        submissions
          (trace (snd (run rt this promptName variables options w)))
        = [])
  /\ (forall id out,
        In (GetDeployedPromptVersion id out)
           (trace (snd (run rt this promptName variables options w))) ->
        failed out ->
        submissions
          (trace (snd (run rt this promptName variables options w)))
        = []).
Proof.
  run_cases.
  all: split; [cbn; lia | ].
  all: split; [intros first second H; read_trace; eauto | ].
  all: split; intros ? out H Hfailed; read_trace; done.
Qed.

(** C9: every report handed to the client omits the [error] key: a
    submission happens only in runs whose backend result has no error
    record, so the conditional spread adds nothing, in the first
    report and in the retry alike. *)
Theorem submitted_report_omits_error promptName variables options w
    report hint out :
  In (ReportPromptExecution report hint out)
     (trace (snd (run rt this promptName variables options w))) ->
  Report.error report = None
  /\ exists props r,
       executions (trace (snd (run rt this promptName variables options w)))
       = [(props, Returns (Fulfilled r))]
       /\ ExecuteResult.error r = None.
Proof.
  run_cases; intros H; read_trace; eauto.
Qed.

End Properties.

(** ** The scenarios, run *)

(** The event is the [n]-th of the trace. *)
Ltac found_at n := apply (nth_error_In _ n); vm_compute; reflexivity.

(** C1: the backend answers with an error record (status 429,
    printable error "rate limited"); [run] rejects with the
    [PezzoClientError], status code 429, and the trace holds no report
    submission at all, where the claim wants exactly one, with status
    ["Error"]. *)
Theorem backend_error_not_reported :
  executions (trace (snd (Scenario.play Scenario.backend_error)))
  = [(Scenario.request, Returns (Fulfilled Scenario.errored))]
  /\ ExecuteResult.error Scenario.errored = Some Scenario.rate_limited
  /\ submissions (trace (snd (Scenario.play Scenario.backend_error))) = []
  /\ fst (Scenario.play Scenario.backend_error)
     = Rejected
         (PezzoClientError
            "Prompt execution failed. Check the Pezzo History to see what went wrong."
            (Exception (JsError "Too Many Requests")) (Some 429%float)).
Proof. vm_compute. repeat split. Qed.

(** C2, as stated, fails: with a backend error record, the message of
    the error raised is not "Prompt execution failed. Check the history
    to see what went wrong.". *)
Lemma backend_error_message_differs :
  In (Execute Scenario.request (Returns (Fulfilled Scenario.errored)))
     (trace (snd (Scenario.play Scenario.backend_error)))
  /\ ExecuteResult.error Scenario.errored = Some Scenario.rate_limited
  /\ forall cause code,
       fst (Scenario.play Scenario.backend_error)
       <> Rejected
            (PezzoClientError
               "Prompt execution failed. Check the history to see what went wrong."
               cause code).
Proof.
  split; [found_at 4%nat | split; [reflexivity | ]].
  intros cause code H. vm_compute in H. discriminate H.
Qed.

Lemma backend_error_raises_client_error_witness :
  In (Execute Scenario.request (Returns (Fulfilled Scenario.errored)))
     (trace (snd (Scenario.play Scenario.backend_error)))
  /\ ExecuteResult.error Scenario.errored = Some Scenario.rate_limited
  /\ fst (Scenario.play Scenario.backend_error)
     = Rejected
         (PezzoClientError
            "Prompt execution failed. Check the Pezzo History to see what went wrong."
            (Exception (JsError "Too Many Requests")) (Some 429%float)).
Proof.
  assert (Hin :
    In (Execute Scenario.request (Returns (Fulfilled Scenario.errored)))
       (trace (snd (Scenario.play Scenario.backend_error))))
    by found_at 4%nat.
  split; [exact Hin | split; [reflexivity | ]].
  exact (backend_error_raises_client_error Script.runtime Script.executor
           "greeting" Scenario.ada Scenario.json Scenario.backend_error
           Scenario.request Scenario.errored Scenario.rate_limited
           Hin eq_refl).
Defined.

(** C3, as stated, fails: the first submission throws, the second one
    returns a promise that is rejected, and the error raised to the
    caller is the first submission's, not the second's. *)
Lemma retry_failure_not_raised :
  submissions (trace (snd (Scenario.play Scenario.report_throws_then_rejects)))
  = [(Scenario.first_report, Some true,
      Throws (JsError "first submission failed"));
     (Scenario.fallback_report, None,
      Returns (Rejected (JsError "second submission failed")))]
  /\ fst (Scenario.play Scenario.report_throws_then_rejects)
     = Rejected (JsError "first submission failed")
  /\ fst (Scenario.play Scenario.report_throws_then_rejects)
     <> Rejected (JsError "second submission failed").
Proof.
  split; [vm_compute; reflexivity | split; [vm_compute; reflexivity | ]].
  intros H. vm_compute in H. discriminate H.
Qed.

Lemma first_submission_throws_retry_witness :
  submissions (trace (snd (Scenario.play Scenario.report_throws_twice)))
  = (Scenario.first_report, Some true,
     Throws (JsError "first submission failed"))
    :: [(Scenario.fallback_report, None,
         Throws (JsError "second submission failed"))]
  /\ exists (report2 : Report.t) (hint2 : option bool) (out2 : call value),
       [(Scenario.fallback_report, None,
         Throws (JsError "second submission failed"))]
       = [(report2, hint2, out2)]
       /\ report2 = degraded Scenario.first_report
       /\ Report.result report2 = None
       /\ Report.status report2 = Error
       /\ fst (Scenario.play Scenario.report_throws_twice)
          = Rejected match out2 with
                     | Throws e2 => e2
                     | Returns _ => JsError "first submission failed"
                     end.
Proof.
  assert (Hsub :
    submissions (trace (snd (Scenario.play Scenario.report_throws_twice)))
    = [(Scenario.first_report, Some true,
        Throws (JsError "first submission failed"));
       (Scenario.fallback_report, None,
        Throws (JsError "second submission failed"))])
    by (vm_compute; reflexivity).
  split; [exact Hsub | ].
  exact (first_submission_throws_retry Script.runtime Script.executor
           "greeting" Scenario.ada Scenario.json Scenario.report_throws_twice
           Scenario.first_report (Some true)
           (JsError "first submission failed")
           [(Scenario.fallback_report, None,
             Throws (JsError "second submission failed"))] Hsub).
Defined.

(** C10, as stated, fails: both submissions throw, and the error raised
    to the caller is the retry's, not the first submission's. *)
Lemma retry_exception_replaces_first_failure :
  submissions (trace (snd (Scenario.play Scenario.report_throws_twice)))
  = [(Scenario.first_report, Some true,
      Throws (JsError "first submission failed"));
     (Scenario.fallback_report, None,
      Throws (JsError "second submission failed"))]
  /\ fst (Scenario.play Scenario.report_throws_twice)
     = Rejected (JsError "second submission failed")
  /\ fst (Scenario.play Scenario.report_throws_twice)
     <> Rejected (JsError "first submission failed").
Proof.
  split; [vm_compute; reflexivity | split; [vm_compute; reflexivity | ]].
  intros H. vm_compute in H. discriminate H.
Qed.

Lemma retry_without_hint_not_awaited_witness :
  submissions (trace (snd (Scenario.play Scenario.report_throws_then_rejects)))
  = (Scenario.first_report, Some true,
     Throws (JsError "first submission failed"))
    :: [(Scenario.fallback_report, None,
         Returns (Rejected (JsError "second submission failed")))]
  /\ Some true = ExecuteOptions.autoParseJSON Scenario.json
  /\ exists (report2 : Report.t) (out2 : call value),
       [(Scenario.fallback_report, None,
         Returns (Rejected (JsError "second submission failed")))]
       = [(report2, @None bool, out2)]
       /\ forall p : promise value,
            out2 = Returns p ->
            fst (Scenario.play Scenario.report_throws_then_rejects)
            = Rejected (JsError "first submission failed").
Proof.
  assert (Hsub :
    submissions
      (trace (snd (Scenario.play Scenario.report_throws_then_rejects)))
    = [(Scenario.first_report, Some true,
        Throws (JsError "first submission failed"));
       (Scenario.fallback_report, None,
        Returns (Rejected (JsError "second submission failed")))])
    by (vm_compute; reflexivity).
  split; [exact Hsub | ].
  exact (retry_without_hint_not_awaited Script.runtime Script.executor
           "greeting" Scenario.ada Scenario.json
           Scenario.report_throws_then_rejects
           Scenario.first_report (Some true)
           (JsError "first submission failed")
           [(Scenario.fallback_report, None,
             Returns (Rejected (JsError "second submission failed")))]
           Hsub).
Defined.

(** C4: the promise returned by [findPrompt] is rejected with an
    [Error] "Prompt not found"; [run] rejects with that very error, not
    with a [PezzoClientError] wrapping it.  The same happens when the
    promise of [getDeployedPromptVersion] is rejected.  No report is
    submitted in either run. *)
Theorem rejected_lookup_not_wrapped :
  (In (FindPrompt "greeting" (Returns (Rejected (JsError "Prompt not found"))))
      (trace (snd (Scenario.play Scenario.lookup_rejected)))
   /\ fst (Scenario.play Scenario.lookup_rejected)
      = Rejected (JsError "Prompt not found")
   /\ submissions (trace (snd (Scenario.play Scenario.lookup_rejected))) = [])
  /\ (In (GetDeployedPromptVersion "prompt-1"
            (Returns (Rejected (JsError "No deployed version"))))
         (trace (snd (Scenario.play Scenario.version_rejected)))
      /\ fst (Scenario.play Scenario.version_rejected)
         = Rejected (JsError "No deployed version")
      /\ submissions (trace (snd (Scenario.play Scenario.version_rejected)))
         = []).
Proof.
  split; (split; [first [found_at 0%nat | found_at 1%nat]
                 | split; vm_compute; reflexivity]).
Qed.

(** The sibling path: a lookup that throws is wrapped. *)
Example thrown_lookup_wrapped :
  fst (Scenario.play Scenario.lookup_throws)
  = Rejected
      (PezzoClientError "Prompt not found"
         (Exception (JsError "Prompt not found")) None).
Proof. vm_compute; reflexivity. Qed.

(** The promise of the first submission is rejected: nothing is caught,
    no fallback report follows. *)
Example rejected_submission_not_retried :
  submissions (trace (snd (Scenario.play Scenario.report_rejected)))
  = [(Scenario.first_report, Some true,
      Returns (Rejected (JsError "first submission failed")))]
  /\ fst (Scenario.play Scenario.report_rejected)
     = Rejected (JsError "first submission failed").
Proof. split; vm_compute; reflexivity. Qed.

(** C5, as stated, fails: every step succeeds and the backend result
    has no error record, but its status is ["Error"]; the one report
    submitted has status ["Error"], not ["Success"]. *)
Lemma errorless_failure_reported_as_error :
  In (Execute Scenario.request (Returns (Fulfilled Scenario.unexplained)))
     (trace (snd (Scenario.play Scenario.unexplained_error)))
  /\ ExecuteResult.error Scenario.unexplained = None
  /\ fst (Scenario.play Scenario.unexplained_error) = Fulfilled VNull
  /\ exists report,
       submissions (trace (snd (Scenario.play Scenario.unexplained_error)))
       = [(report, Some true, Returns (Fulfilled VNull))]
       /\ Report.status report = Error
       /\ Report.status report <> Success.
Proof.
  split; [found_at 4%nat | split; [reflexivity | ]].
  split; [vm_compute; reflexivity | ].
  eexists. split; [vm_compute; reflexivity | ].
  split; [reflexivity | discriminate].
Qed.

Lemma successful_run_witness :
  In (Execute Scenario.request (Returns (Fulfilled Scenario.succeeded)))
     (trace (snd (Scenario.play Scenario.happy)))
  /\ ExecuteResult.error Scenario.succeeded = None
  /\ (forall report hint out,
        In (ReportPromptExecution report hint out)
           (trace (snd (Scenario.play Scenario.happy))) ->
        exists v, out = Returns (Fulfilled v))
  /\ all_finite (clock_readings (trace (snd (Scenario.play Scenario.happy))))
  /\ monotonic (clock_readings (trace (snd (Scenario.play Scenario.happy))))
  /\ exists report v,
       submissions (trace (snd (Scenario.play Scenario.happy)))
       = [(report, ExecuteOptions.autoParseJSON Scenario.json,
           Returns (Fulfilled v))]
       /\ fst (Scenario.play Scenario.happy) = Fulfilled v
       /\ Report.status report = ExecuteResult.status Scenario.succeeded
       /\ (0 <=? Report.duration report)%float = true.
Proof.
  assert (Hin :
    In (Execute Scenario.request (Returns (Fulfilled Scenario.succeeded)))
       (trace (snd (Scenario.play Scenario.happy))))
    by found_at 4%nat.
  assert (Hsub :
    forall report hint out,
      In (ReportPromptExecution report hint out)
         (trace (snd (Scenario.play Scenario.happy))) ->
      exists v, out = Returns (Fulfilled v)).
  { intros report hint out H.
    assert (Htrace :
      exists e0 e1 e2 e3 e4 e5 r h,
        trace (snd (Scenario.play Scenario.happy))
        = [FindPrompt "greeting" e0; GetDeployedPromptVersion "prompt-1" e1;
           InterpolateVariables "Hello, {{name}}!" Scenario.ada e2;
           PerformanceNow e3; Execute Scenario.request e4; PerformanceNow e5;
           ReportPromptExecution r h (Returns (Fulfilled (VStr "Hi Ada")))])
      by (do 8 eexists; vm_compute; reflexivity).
    destruct Htrace as (e0 & e1 & e2 & e3 & e4 & e5 & r & h & Htrace).
    rewrite Htrace in H. cbn [In] in H.
    repeat (destruct H as [H | H]; [try discriminate H | ]);
      [ | destruct H ].
    injection H as _ _ <-. eexists; reflexivity. }
  assert (Hfinite :
    all_finite (clock_readings (trace (snd (Scenario.play Scenario.happy)))))
    by (vm_compute; repeat split).
  assert (Hclock :
    monotonic (clock_readings (trace (snd (Scenario.play Scenario.happy)))))
    by (vm_compute; repeat split).
  split; [exact Hin | ].
  split; [reflexivity | ].
  split; [exact Hsub | ].
  split; [exact Hfinite | ].
  split; [exact Hclock | ].
  exact (successful_run Script.runtime Script.executor
           "greeting" Scenario.ada Scenario.json Scenario.happy
           Scenario.request Scenario.succeeded
           Hin eq_refl Hsub Hfinite Hclock).
Defined.

Lemma submitted_report_totals_witness :
  In (ReportPromptExecution Scenario.fallback_report None
        (Returns (Rejected (JsError "second submission failed"))))
     (trace (snd (Scenario.play Scenario.report_throws_then_rejects)))
  /\ exists props r,
       executions
         (trace (snd (Scenario.play Scenario.report_throws_then_rejects)))
       = [(props, Returns (Fulfilled r))]
       /\ Report.totalTokens Scenario.fallback_report
          = (ExecuteResult.promptTokens r + ExecuteResult.completionTokens r)%float
       /\ Report.totalCost Scenario.fallback_report
          = (ExecuteResult.promptCost r + ExecuteResult.completionCost r)%float.
Proof.
  assert (Hin :
    In (ReportPromptExecution Scenario.fallback_report None
          (Returns (Rejected (JsError "second submission failed"))))
       (trace (snd (Scenario.play Scenario.report_throws_then_rejects))))
    by found_at 7%nat.
  split; [exact Hin | ].
  exact (submitted_report_totals Script.runtime Script.executor
           "greeting" Scenario.ada Scenario.json
           Scenario.report_throws_then_rejects Scenario.fallback_report None
           (Returns (Rejected (JsError "second submission failed"))) Hin).
Defined.


Lemma at_most_two_submissions_witness :
  In (FindPrompt "greeting" (Returns (Rejected (JsError "Prompt not found"))))
     (trace (snd (Scenario.play Scenario.lookup_rejected)))
  /\ failed (Returns (Rejected (JsError "Prompt not found")) : call Prompt.t)
  /\ submissions (trace (snd (Scenario.play Scenario.lookup_rejected))) = []
  /\ (length (submissions
                (trace (snd (Scenario.play Scenario.report_throws_twice))))
      <= 2)%nat.
Proof.
  assert (Hin :
    In (FindPrompt "greeting"
          (Returns (Rejected (JsError "Prompt not found"))))
       (trace (snd (Scenario.play Scenario.lookup_rejected))))
    by found_at 0%nat.
  split; [exact Hin | split; [exact I | split]].
  - exact (proj1 (proj2 (proj2
             (at_most_two_submissions Script.runtime Script.executor
                "greeting" Scenario.ada Scenario.json
                Scenario.lookup_rejected)))
             "greeting" _ Hin I).
  - exact (proj1 (at_most_two_submissions Script.runtime Script.executor
                    "greeting" Scenario.ada Scenario.json
                    Scenario.report_throws_twice)).
Defined.

Lemma submitted_report_omits_error_witness :
  In (ReportPromptExecution Scenario.first_report (Some true)
        (Returns (Fulfilled (VStr "Hi Ada"))))
     (trace (snd (Scenario.play Scenario.happy)))
  /\ Report.error Scenario.first_report = None
  /\ exists props r,
       executions (trace (snd (Scenario.play Scenario.happy)))
       = [(props, Returns (Fulfilled r))]
       /\ ExecuteResult.error r = None.
Proof.
  assert (Hin :
    In (ReportPromptExecution Scenario.first_report (Some true)
          (Returns (Fulfilled (VStr "Hi Ada"))))
       (trace (snd (Scenario.play Scenario.happy))))
    by found_at 6%nat.
  split; [exact Hin | ].
  exact (submitted_report_omits_error Script.runtime Script.executor
           "greeting" Scenario.ada Scenario.json Scenario.happy
           Scenario.first_report (Some true)
           (Returns (Fulfilled (VStr "Hi Ada"))) Hin).
Defined.

(** ** The rest of the pipeline *)

Section Pipeline.

Context {W : Type} (rt : Runtime W) (this : BaseExecutor W).
Implicit Types (promptName : string) (variables : gmap string string)
  (options : ExecuteOptions.t) (w : W).

(** X1: whatever the collaborators answer, the calls of a run follow
    the order of the pipeline - prompt lookup, version lookup,
    interpolation, clock, backend, clock, submission, submission - and
    stop somewhere along it: no step is skipped, repeated or taken out
    of turn. *)
Theorem run_call_order promptName variables options w :
  map step_of (trace (snd (run rt this promptName variables options w)))
  `prefix_of` pipeline.
Proof.
  run_cases; cbn [map step_of]; unfold pipeline; eexists; reflexivity.
Qed.

(** X2: when the prompt lookup fails, by throwing or by rejecting, the
    lookup of [promptName] is the only call the run makes. *)
Theorem prompt_lookup_failure_stops promptName variables options w
    name out :
  In (FindPrompt name out)
     (trace (snd (run rt this promptName variables options w))) ->
  failed out ->
  trace (snd (run rt this promptName variables options w))
  = [FindPrompt promptName out].
Proof. run_cases; intros H Hfailed; read_trace; done. Qed.

(** X3: when the version lookup fails, by throwing or by rejecting,
    the run has made two calls only: the prompt lookup, and the version
    lookup for the id of the prompt found. *)
Theorem version_lookup_failure_stops promptName variables options w
    id out :
  In (GetDeployedPromptVersion id out)
     (trace (snd (run rt this promptName variables options w))) ->
  failed out ->
  exists prompt,
    id = Prompt.id prompt
    /\ trace (snd (run rt this promptName variables options w))
       = [FindPrompt promptName (Returns (Fulfilled prompt));
          GetDeployedPromptVersion (Prompt.id prompt) out].
Proof.
  run_cases; intros H Hfailed; read_trace; try done;
    eexists; split; reflexivity.
Qed.

(** X8: when [execute] throws, or returns a promise that is rejected,
    [run] rejects with that very error, unwrapped; the backend call is
    the last call of the run, so nothing is reported, and the clock has
    been read once. *)
Theorem backend_failure_propagates promptName variables options w
    props out e :
  In (Execute props out)
     (trace (snd (run rt this promptName variables options w))) ->
  out = Throws e \/ out = Returns (Rejected e) ->
  fst (run rt this promptName variables options w) = Rejected e
  /\ last (trace (snd (run rt this promptName variables options w)))
     = Some (Execute props out)
  /\ submissions (trace (snd (run rt this promptName variables options w)))
     = []
  /\ length (clock_readings
               (trace (snd (run rt this promptName variables options w))))
     = 1%nat.
Proof.
  run_cases; intros H Hout; read_trace; repeat split.
Qed.

(** X10: when the first report submission returns a promise, [run]
    settles exactly as that promise does - fulfilled with its value or
    rejected with its reason - and no second submission is made, not
    even when the promise is rejected. *)
Theorem run_settles_as_first_submission promptName variables options w
    report hint p rest :
  submissions (trace (snd (run rt this promptName variables options w)))
  = (report, hint, Returns p) :: rest ->
  rest = []
  /\ fst (run rt this promptName variables options w) = p.
Proof. run_cases; intros H; read_trace; done. Qed.

(** X11: the first report names the prompt by the id that the lookup
    returned and the version by its sha, holds the template as
    [content] and the text sent to the backend as
    [interpolatedContent], keeps the caller's variables and the whole
    settings of the version, and is submitted with
    [options.autoParseJSON]. *)
Theorem first_report_identifies_prompt promptName variables options w
    report hint out rest :
  submissions (trace (snd (run rt this promptName variables options w)))
  = (report, hint, out) :: rest ->
  exists prompt promptVersion props r,
    In (FindPrompt promptName (Returns (Fulfilled prompt)))
       (trace (snd (run rt this promptName variables options w)))
    /\ In (GetDeployedPromptVersion (Prompt.id prompt)
             (Returns (Fulfilled promptVersion)))
          (trace (snd (run rt this promptName variables options w)))
    /\ executions (trace (snd (run rt this promptName variables options w)))
       = [(props, Returns (Fulfilled r))]
    /\ hint = ExecuteOptions.autoParseJSON options
    /\ Report.prompt report = Prompt.id prompt
    /\ Report.promptVersionSha report = PromptVersion.sha promptVersion
    /\ Report.content report = PromptVersion.content promptVersion
    /\ Report.variables report = variables
    /\ Report.interpolatedContent report = ExecuteProps.content props
    /\ Report.settings report = PromptVersion.settings promptVersion.
Proof.
  run_cases; intros H; read_trace;
    do 4 eexists; (split; [eauto 8 | split; [eauto 8 | ]]);
    repeat split.
Qed.

(** X12: the first report copies from the backend result its status,
    its result (the key is present even when the result is undefined),
    and the four token and cost figures. *)
Theorem first_report_carries_result promptName variables options w
    report hint out rest :
  submissions (trace (snd (run rt this promptName variables options w)))
  = (report, hint, out) :: rest ->
  exists props r,
    executions (trace (snd (run rt this promptName variables options w)))
    = [(props, Returns (Fulfilled r))]
    /\ Report.status report = ExecuteResult.status r
    /\ Report.result report = Some (ExecuteResult.result r)
    /\ Report.promptTokens report = ExecuteResult.promptTokens r
    /\ Report.completionTokens report = ExecuteResult.completionTokens r
    /\ Report.promptCost report = ExecuteResult.promptCost r
    /\ Report.completionCost report = ExecuteResult.completionCost r.
Proof.
  run_cases; intros H; read_trace; do 2 eexists; repeat split.
Qed.

(** X13: a run that submits a report has read the clock exactly twice,
    right before and right after the backend call; the duration in the
    report, first or fallback alike, is [Math.ceil] of the difference
    of the two readings, second minus first, both operations being
    those of doubles. *)
Theorem report_duration promptName variables options w report hint out :
  In (ReportPromptExecution report hint out)
     (trace (snd (run rt this promptName variables options w))) ->
  exists before start props result stop after,
    trace (snd (run rt this promptName variables options w))
    = (before
       ++ [PerformanceNow start; Execute props result; PerformanceNow stop]
       ++ after)%list
    /\ clock_readings
         (trace (snd (run rt this promptName variables options w)))
       = [start; stop]
    /\ Report.duration report = Math_ceil (stop - start)%float.
Proof.
  run_cases; intros H; read_trace;
    eexists [_; _; _]; do 5 eexists;
    (split; [reflexivity | split; reflexivity]).
Qed.

(** X14: when the settings of the deployed version lack [model] (or
    [modelSettings]), the backend still gets a settings object with
    that key, holding [undefined]. *)
Theorem missing_setting_undefined promptName variables options w
    id promptVersion key :
  In (GetDeployedPromptVersion id (Returns (Fulfilled promptVersion)))
     (trace (snd (run rt this promptName variables options w))) ->
  key = "model" \/ key = "modelSettings" ->
  PromptVersion.settings promptVersion !! key = None ->
  exists props out,
    executions (trace (snd (run rt this promptName variables options w)))
    = [(props, out)]
    /\ ExecuteProps.settings props !! key = Some VUndefined.
Proof.
  run_cases; intros H Hkey Hmissing; read_trace.
  all: do 2 eexists; (split; [reflexivity | ]); cbn.
  all: unfold prop; rewrite Hmissing; cbn.
  all: first [ apply lookup_insert_eq
             | rewrite lookup_insert_ne by done; apply lookup_singleton_eq ].
Qed.

(** X15: called with a prompt name only, [run] interpolates with no
    variables, hands the backend the empty options, and submits its
    reports, first and fallback, with no variables and without the
    [autoParseJSON] hint. *)
Theorem run_defaults promptName w :
  (forall template vars,
     In (template, vars)
        (interpolations
           (trace (snd (run_with_defaults rt this promptName None None w)))) ->
     vars = ∅)
  /\ (forall props out,
        In (props, out)
           (executions
              (trace (snd (run_with_defaults rt this promptName None None
                             w)))) ->
        ExecuteProps.options props = ExecuteOptions.empty)
  /\ (forall report hint out,
        In (report, hint, out)
           (submissions
              (trace (snd (run_with_defaults rt this promptName None None
                             w)))) ->
        hint = None /\ Report.variables report = ∅).
Proof.
  unfold run_with_defaults; cbn [default from_option].
  run_cases.
  all: split; [intros template vars H; read_trace; done | ].
  all: split; [intros props out H; read_trace; done | ].
  all: intros report hint out H; read_trace; done.
Qed.

End Pipeline.

(** ** The scenarios, continued *)

Lemma prompt_lookup_failure_stops_witness :
  In (FindPrompt "greeting" (Returns (Rejected (JsError "Prompt not found"))))
     (trace (snd (Scenario.play Scenario.lookup_rejected)))
  /\ failed (Returns (Rejected (JsError "Prompt not found")) : call Prompt.t)
  /\ trace (snd (Scenario.play Scenario.lookup_rejected))
     = [FindPrompt "greeting"
          (Returns (Rejected (JsError "Prompt not found")))].
Proof.
  assert (Hin :
    In (FindPrompt "greeting"
          (Returns (Rejected (JsError "Prompt not found"))))
       (trace (snd (Scenario.play Scenario.lookup_rejected))))
    by found_at 0%nat.
  split; [exact Hin | split; [exact I | ]].
  exact (prompt_lookup_failure_stops Script.runtime Script.executor
           "greeting" Scenario.ada Scenario.json Scenario.lookup_rejected
           "greeting" _ Hin I).
Defined.

Lemma version_lookup_failure_stops_witness :
  In (GetDeployedPromptVersion "prompt-1"
        (Returns (Rejected (JsError "No deployed version"))))
     (trace (snd (Scenario.play Scenario.version_rejected)))
  /\ failed (Returns (Rejected (JsError "No deployed version"))
             : call PromptVersion.t)
  /\ exists prompt,
       "prompt-1" = Prompt.id prompt
       /\ trace (snd (Scenario.play Scenario.version_rejected))
          = [FindPrompt "greeting" (Returns (Fulfilled prompt));
             GetDeployedPromptVersion (Prompt.id prompt)
               (Returns (Rejected (JsError "No deployed version")))].
Proof.
  assert (Hin :
    In (GetDeployedPromptVersion "prompt-1"
          (Returns (Rejected (JsError "No deployed version"))))
       (trace (snd (Scenario.play Scenario.version_rejected))))
    by found_at 1%nat.
  split; [exact Hin | split; [exact I | ]].
  exact (version_lookup_failure_stops Script.runtime Script.executor
           "greeting" Scenario.ada Scenario.json Scenario.version_rejected
           "prompt-1" _ Hin I).
Defined.

Lemma prompt_lookup_throw_wrapped_witness :
  In (FindPrompt "greeting" (Throws (JsError "Prompt not found")))
     (trace (snd (Scenario.play Scenario.lookup_throws)))
  /\ fst (Scenario.play Scenario.lookup_throws)
     = Rejected
         (PezzoClientError (message_of (JsError "Prompt not found"))
            (Exception (JsError "Prompt not found")) None).
Proof.
  assert (Hin :
    In (FindPrompt "greeting" (Throws (JsError "Prompt not found")))
       (trace (snd (Scenario.play Scenario.lookup_throws))))
    by found_at 0%nat.
  split; [exact Hin | ].
  exact (prompt_lookup_throw_wrapped Script.runtime Script.executor
           "greeting" Scenario.ada Scenario.json Scenario.lookup_throws
           (JsError "Prompt not found") Hin).
Defined.

Lemma version_lookup_throw_wrapped_witness :
  In (GetDeployedPromptVersion "prompt-1"
        (Throws (JsError "No deployed version")))
     (trace (snd (Scenario.play Scenario.version_throws)))
  /\ fst (Scenario.play Scenario.version_throws)
     = Rejected
         (PezzoClientError (message_of (JsError "No deployed version"))
            (Exception (JsError "No deployed version")) None).
Proof.
  assert (Hin :
    In (GetDeployedPromptVersion "prompt-1"
          (Throws (JsError "No deployed version")))
       (trace (snd (Scenario.play Scenario.version_throws))))
    by found_at 1%nat.
  split; [exact Hin | ].
  exact (version_lookup_throw_wrapped Script.runtime Script.executor
           "greeting" Scenario.ada Scenario.json Scenario.version_throws
           "prompt-1" (JsError "No deployed version") Hin).
Defined.

Lemma prompt_lookup_rejection_propagates_witness :
  In (FindPrompt "greeting" (Returns (Rejected (JsError "Prompt not found"))))
     (trace (snd (Scenario.play Scenario.lookup_rejected)))
  /\ fst (Scenario.play Scenario.lookup_rejected)
     = Rejected (JsError "Prompt not found").
Proof.
  assert (Hin :
    In (FindPrompt "greeting"
          (Returns (Rejected (JsError "Prompt not found"))))
       (trace (snd (Scenario.play Scenario.lookup_rejected))))
    by found_at 0%nat.
  split; [exact Hin | ].
  exact (prompt_lookup_rejection_propagates Script.runtime Script.executor
           "greeting" Scenario.ada Scenario.json Scenario.lookup_rejected
           (JsError "Prompt not found") Hin).
Defined.

Lemma version_lookup_rejection_propagates_witness :
  In (GetDeployedPromptVersion "prompt-1"
        (Returns (Rejected (JsError "No deployed version"))))
     (trace (snd (Scenario.play Scenario.version_rejected)))
  /\ fst (Scenario.play Scenario.version_rejected)
     = Rejected (JsError "No deployed version").
Proof.
  assert (Hin :
    In (GetDeployedPromptVersion "prompt-1"
          (Returns (Rejected (JsError "No deployed version"))))
       (trace (snd (Scenario.play Scenario.version_rejected))))
    by found_at 1%nat.
  split; [exact Hin | ].
  exact (version_lookup_rejection_propagates Script.runtime Script.executor
           "greeting" Scenario.ada Scenario.json Scenario.version_rejected
           "prompt-1" (JsError "No deployed version") Hin).
Defined.

Lemma backend_failure_propagates_witness :
  In (Execute Scenario.request (Throws (JsError "socket hang up")))
     (trace (snd (Scenario.play Scenario.backend_throws)))
  /\ ((Throws (JsError "socket hang up") : call ExecuteResult.t)
      = Throws (JsError "socket hang up")
      \/ (Throws (JsError "socket hang up") : call ExecuteResult.t)
         = Returns (Rejected (JsError "socket hang up")))
  /\ fst (Scenario.play Scenario.backend_throws)
     = Rejected (JsError "socket hang up")
  /\ last (trace (snd (Scenario.play Scenario.backend_throws)))
     = Some (Execute Scenario.request (Throws (JsError "socket hang up")))
  /\ submissions (trace (snd (Scenario.play Scenario.backend_throws))) = []
  /\ length (clock_readings
               (trace (snd (Scenario.play Scenario.backend_throws))))
     = 1%nat.
Proof.
  assert (Hin :
    In (Execute Scenario.request (Throws (JsError "socket hang up")))
       (trace (snd (Scenario.play Scenario.backend_throws))))
    by found_at 4%nat.
  split; [exact Hin | split; [left; reflexivity | ]].
  exact (backend_failure_propagates Script.runtime Script.executor
           "greeting" Scenario.ada Scenario.json Scenario.backend_throws
           Scenario.request _ (JsError "socket hang up") Hin
           (or_introl eq_refl)).
Defined.

Lemma error_result_submits_nothing_witness :
  In (Execute Scenario.request (Returns (Fulfilled Scenario.errored)))
     (trace (snd (Scenario.play Scenario.backend_error)))
  /\ ExecuteResult.error Scenario.errored = Some Scenario.rate_limited
  /\ submissions (trace (snd (Scenario.play Scenario.backend_error))) = [].
Proof.
  assert (Hin :
    In (Execute Scenario.request (Returns (Fulfilled Scenario.errored)))
       (trace (snd (Scenario.play Scenario.backend_error))))
    by found_at 4%nat.
  split; [exact Hin | split; [reflexivity | ]].
  exact (error_result_submits_nothing Script.runtime Script.executor
           "greeting" Scenario.ada Scenario.json Scenario.backend_error
           Scenario.request Scenario.errored Scenario.rate_limited
           Hin eq_refl).
Defined.

Lemma run_settles_as_first_submission_witness :
  submissions (trace (snd (Scenario.play Scenario.report_rejected)))
  = (Scenario.first_report, Some true,
     Returns (Rejected (JsError "first submission failed"))) :: []
  /\ @nil (Report.t * option bool * call value) = []
  /\ fst (Scenario.play Scenario.report_rejected)
     = Rejected (JsError "first submission failed").
Proof.
  assert (Hsub :
    submissions (trace (snd (Scenario.play Scenario.report_rejected)))
    = [(Scenario.first_report, Some true,
        Returns (Rejected (JsError "first submission failed")))])
    by (vm_compute; reflexivity).
  split; [exact Hsub | ].
  exact (run_settles_as_first_submission Script.runtime Script.executor
           "greeting" Scenario.ada Scenario.json Scenario.report_rejected
           Scenario.first_report (Some true)
           (Rejected (JsError "first submission failed")) [] Hsub).
Defined.

Lemma first_report_identifies_prompt_witness :
  submissions (trace (snd (Scenario.play Scenario.happy)))
  = (Scenario.first_report, Some true, Returns (Fulfilled (VStr "Hi Ada")))
    :: []
  /\ exists prompt promptVersion props r,
       In (FindPrompt "greeting" (Returns (Fulfilled prompt)))
          (trace (snd (Scenario.play Scenario.happy)))
       /\ In (GetDeployedPromptVersion (Prompt.id prompt)
                (Returns (Fulfilled promptVersion)))
             (trace (snd (Scenario.play Scenario.happy)))
       /\ executions (trace (snd (Scenario.play Scenario.happy)))
          = [(props, Returns (Fulfilled r))]
       /\ Some true = ExecuteOptions.autoParseJSON Scenario.json
       /\ Report.prompt Scenario.first_report = Prompt.id prompt
       /\ Report.promptVersionSha Scenario.first_report
          = PromptVersion.sha promptVersion
       /\ Report.content Scenario.first_report
          = PromptVersion.content promptVersion
       /\ Report.variables Scenario.first_report = Scenario.ada
       /\ Report.interpolatedContent Scenario.first_report
          = ExecuteProps.content props
       /\ Report.settings Scenario.first_report
          = PromptVersion.settings promptVersion.
Proof.
  assert (Hsub :
    submissions (trace (snd (Scenario.play Scenario.happy)))
    = [(Scenario.first_report, Some true,
        Returns (Fulfilled (VStr "Hi Ada")))])
    by (vm_compute; reflexivity).
  split; [exact Hsub | ].
  exact (first_report_identifies_prompt Script.runtime Script.executor
           "greeting" Scenario.ada Scenario.json Scenario.happy
           Scenario.first_report (Some true)
           (Returns (Fulfilled (VStr "Hi Ada"))) [] Hsub).
Defined.

Lemma first_report_carries_result_witness :
  submissions (trace (snd (Scenario.play Scenario.happy)))
  = (Scenario.first_report, Some true, Returns (Fulfilled (VStr "Hi Ada")))
    :: []
  /\ exists props r,
       executions (trace (snd (Scenario.play Scenario.happy)))
       = [(props, Returns (Fulfilled r))]
       /\ Report.status Scenario.first_report = ExecuteResult.status r
       /\ Report.result Scenario.first_report
          = Some (ExecuteResult.result r)
       /\ Report.promptTokens Scenario.first_report
          = ExecuteResult.promptTokens r
       /\ Report.completionTokens Scenario.first_report
          = ExecuteResult.completionTokens r
       /\ Report.promptCost Scenario.first_report
          = ExecuteResult.promptCost r
       /\ Report.completionCost Scenario.first_report
          = ExecuteResult.completionCost r.
Proof.
  assert (Hsub :
    submissions (trace (snd (Scenario.play Scenario.happy)))
    = [(Scenario.first_report, Some true,
        Returns (Fulfilled (VStr "Hi Ada")))])
    by (vm_compute; reflexivity).
  split; [exact Hsub | ].
  exact (first_report_carries_result Script.runtime Script.executor
           "greeting" Scenario.ada Scenario.json Scenario.happy
           Scenario.first_report (Some true)
           (Returns (Fulfilled (VStr "Hi Ada"))) [] Hsub).
Defined.

Lemma report_duration_witness :
  In (ReportPromptExecution Scenario.fallback_report None
        (Throws (JsError "second submission failed")))
     (trace (snd (Scenario.play Scenario.report_throws_twice)))
  /\ exists before start props result stop after,
       trace (snd (Scenario.play Scenario.report_throws_twice))
       = (before
          ++ [PerformanceNow start; Execute props result; PerformanceNow stop]
          ++ after)%list
       /\ clock_readings
            (trace (snd (Scenario.play Scenario.report_throws_twice)))
          = [start; stop]
       /\ Report.duration Scenario.fallback_report
          = Math_ceil (stop - start)%float.
Proof.
  assert (Hin :
    In (ReportPromptExecution Scenario.fallback_report None
          (Throws (JsError "second submission failed")))
       (trace (snd (Scenario.play Scenario.report_throws_twice))))
    by found_at 7%nat.
  split; [exact Hin | ].
  exact (report_duration Script.runtime Script.executor
           "greeting" Scenario.ada Scenario.json Scenario.report_throws_twice
           Scenario.fallback_report None
           (Throws (JsError "second submission failed")) Hin).
Defined.

Lemma missing_setting_undefined_witness :
  In (GetDeployedPromptVersion "prompt-1"
        (Returns (Fulfilled Scenario.unconfigured)))
     (trace (snd (Scenario.play Scenario.no_model)))
  /\ ("model" = "model" \/ "model" = "modelSettings")
  /\ PromptVersion.settings Scenario.unconfigured !! "model" = None
  /\ exists props out,
       executions (trace (snd (Scenario.play Scenario.no_model)))
       = [(props, out)]
       /\ ExecuteProps.settings props !! "model" = Some VUndefined.
Proof.
  assert (Hin :
    In (GetDeployedPromptVersion "prompt-1"
          (Returns (Fulfilled Scenario.unconfigured)))
       (trace (snd (Scenario.play Scenario.no_model))))
    by found_at 1%nat.
  assert (Hmissing :
    PromptVersion.settings Scenario.unconfigured !! "model" = None)
    by (vm_compute; reflexivity).
  split; [exact Hin | split; [left; reflexivity | split; [exact Hmissing | ]]].
  exact (missing_setting_undefined Script.runtime Script.executor
           "greeting" Scenario.ada Scenario.json Scenario.no_model
           "prompt-1" Scenario.unconfigured "model" Hin
           (or_introl eq_refl) Hmissing).
Defined.

Lemma run_defaults_witness :
  In (Scenario.bare_report, None, Returns (Fulfilled (VStr "Hi Ada")))
     (submissions (trace (snd (Scenario.play_bare Scenario.happy))))
  /\ @None bool = None
  /\ Report.variables Scenario.bare_report = ∅.
Proof.
  assert (Hin :
    In (Scenario.bare_report, @None bool,
        Returns (Fulfilled (VStr "Hi Ada")))
       (submissions (trace (snd (Scenario.play_bare Scenario.happy)))))
    by found_at 0%nat.
  split; [exact Hin | ].
  exact (proj2 (proj2 (run_defaults Script.runtime Script.executor
                         "greeting" Scenario.happy))
           Scenario.bare_report None
           (Returns (Fulfilled (VStr "Hi Ada"))) Hin).
Defined.

#[local] Set Warnings "-inexact-float".

(** The sums and the difference are those of doubles: costs 0.1 and
    0.2 are reported as 0.30000000000000004, 2^53 tokens and one more
    as 2^53, and 3.1 - 0.1 is rounded to 3 before [Math.ceil] sees
    it. *)
Example rounded_figures :
  exists report,
    submissions (trace (snd (Scenario.play Scenario.rounding)))
    = [(report, Some true, Returns (Fulfilled (VStr "Hi Ada")))]
    /\ Report.totalCost report = 0.30000000000000004%float
    /\ Report.totalTokens report = 9007199254740992%float
    /\ Report.duration report = 3%float.
Proof.
  eexists. split; [vm_compute; reflexivity | ].
  repeat split.
Qed.
